(** * The test MCP server ([skills/test-mcp/server.py])

    A shallow embedding of the line-delimited JSON-RPC loop of
    [server.py]: the values [json.loads] produces, the Python operations
    the script applies to them, [handle_request] and [main], followed by
    the properties of the request/response protocol. *)

From Stdlib Require Import ZArith List String Ascii Bool Lia.
From Stdlib Require Import DecimalString SpecFloat.
Import ListNotations.
Local Open Scope string_scope.
Local Open Scope Z_scope.
Set Warnings "-register-all".

(** ** Exceptions *)

(** The exception classes that can reach the [except Exception] clause of
    [main].  [json.JSONDecodeError] has a clause of its own and is kept
    apart (see [loads_outcome]). *)
Inductive exn_class : Type :=
| AttributeError
| TypeError
| KeyError
| ValueError
| OverflowError
| RecursionError
| MemoryError
| UnboundLocalError.

(** An exception instance; [exn_msg] is what [str(e)] returns. *)
Record exn : Type := Exn { exn_cls : exn_class; exn_msg : string }.

(** [str(e)] *)
Definition exn_str (e : exn) : string := exn_msg e.

(** Computations that return or raise. *)
Definition result (A : Type) : Type := (exn + A)%type.

Definition ret {A : Type} (a : A) : result A := inr a.
Definition raise {A : Type} (e : exn) : result A := inl e.
Definition bind {A B : Type} (c : result A) (k : A -> result B) : result B :=
  match c with
  | inl e => inl e
  | inr a => k a
  end.

Notation "x <- c ;; k" := (bind c (fun x => k))
  (at level 61, c at next level, right associativity).

(** ** Values *)

(** The Python objects [json.loads] builds: [None], [bool], [int], [float]
    (an IEEE binary64, NaN and the infinities included), [str], [list] and
    [dict].  A [str] is held in its UTF-8 encoding; a [dict] by its items in
    insertion order. *)
Inductive value : Type :=
| VNone
| VBool (b : bool)
| VInt (z : Z)
| VFloat (f : spec_float)
| VStr (s : string)
| VList (l : list value)
| VDict (d : list (string * value)).

(** [type(v).__name__] *)
Definition type_name (v : value) : string :=
  match v with
  | VNone => "NoneType"
  | VBool _ => "bool"
  | VInt _ => "int"
  | VFloat _ => "float"
  | VStr _ => "str"
  | VList _ => "list"
  | VDict _ => "dict"
  end.

(** The double quote character, for messages that contain one. *)
Definition dq : string := String (ascii_of_nat 34) EmptyString.

(** The binding of key [k] in the items of a dict. *)
Fixpoint dict_lookup (k : string) (d : list (string * value)) : option value :=
  match d with
  | [] => None
  | (k', v) :: d' => if String.eqb k k' then Some v else dict_lookup k d'
  end.

(** [v == s] for a string literal [s]: only the string [s] itself is equal
    to it. *)
Definition py_eq_str (v : value) (s : string) : bool :=
  match v with
  | VStr t => String.eqb t s
  | _ => false
  end.

(** [needle in hay] on two strings: substring test. *)
Fixpoint str_contains (needle hay : string) : bool :=
  String.prefix needle hay
  || match hay with
     | EmptyString => false
     | String _ hay' => str_contains needle hay'
     end.

(** [v.get(k, dflt)] *)
Definition py_get (v : value) (k : string) (dflt : value) : result value :=
  match v with
  | VDict d =>
      ret (match dict_lookup k d with Some x => x | None => dflt end)
  | _ =>
      raise (Exn AttributeError
               ("'" ++ type_name v ++ "' object has no attribute 'get'"))
  end.

(** [k in v] for a string literal [k] *)
Definition py_contains (k : string) (v : value) : result bool :=
  match v with
  | VDict d => ret (match dict_lookup k d with Some _ => true | None => false end)
  | VList l => ret (existsb (fun x => py_eq_str x k) l)
  | VStr s => ret (str_contains k s)
  | _ =>
      raise (Exn TypeError
               ("argument of type '" ++ type_name v ++ "' is not iterable"))
  end.

(** [is None] *)
Definition is_none (v : value) : bool :=
  match v with
  | VNone => true
  | _ => false
  end.

(** ** The interpreter's conversions to text *)

(** What the script takes from the interpreter when it formats a value:
    [str] of an [int] (which raises [ValueError] past the interpreter's
    digit limit), [repr] of a [float] (shortest digits that round-trip)
    and [repr] of a [str] (quoting and escaping, by the Unicode database). *)
Class PyRuntime : Type := {
  int_str : Z -> result string;
  float_repr : spec_float -> string;
  str_repr : string -> string
}.

Section Server.

Context {rt : PyRuntime}.

(** [", ".join(items)] *)
Fixpoint join_comma (items : list string) : string :=
  match items with
  | [] => ""
  | [s] => s
  | s :: rest => s ++ ", " ++ join_comma rest
  end.

(** [repr(v)] *)
Fixpoint py_repr (v : value) : result string :=
  match v with
  | VNone => ret "None"
  | VBool true => ret "True"
  | VBool false => ret "False"
  | VInt z => int_str z
  | VFloat f => ret (float_repr f)
  | VStr s => ret (str_repr s)
  | VList l =>
      items <- (fix reprs (l : list value) : result (list string) :=
                  match l with
                  | [] => ret []
                  | x :: l' =>
                      s <- py_repr x ;;
                      r <- reprs l' ;;
                      ret (s :: r)
                  end) l ;;
      ret ("[" ++ join_comma items ++ "]")
  | VDict d =>
      items <- (fix reprs (d : list (string * value)) : result (list string) :=
                  match d with
                  | [] => ret []
                  | (k, x) :: d' =>
                      s <- py_repr x ;;
                      r <- reprs d' ;;
                      ret ((str_repr k ++ ": " ++ s) :: r)
                  end) d ;;
      ret ("{" ++ join_comma items ++ "}")
  end.

(** [str(v)], which is also what a replacement field [{v}] of an f-string
    inserts. *)
Definition py_str (v : value) : result string :=
  match v with
  | VStr s => ret s
  | _ => py_repr v
  end.

(** [v[k]] for a string literal [k] *)
Definition py_getitem (v : value) (k : string) : result value :=
  match v with
  | VDict d =>
      match dict_lookup k d with
      | Some x => ret x
      | None => raise (Exn KeyError (str_repr k))
      end
  | VList _ =>
      raise (Exn TypeError "list indices must be integers or slices, not str")
  | VStr _ =>
      raise (Exn TypeError "string indices must be integers, not 'str'")
  | _ =>
      raise (Exn TypeError
               ("'" ++ type_name v ++ "' object is not subscriptable"))
  end.

(** ** Addition *)

(** binary64 addition, rounding to nearest even. *)
Definition float_add (x y : spec_float) : spec_float := SFadd 53 1024 x y.

(** [float(z)] for an [int]: correctly rounded, [OverflowError] when the
    rounded value is not finite. *)
Definition float_of_int (z : Z) : result spec_float :=
  match binary_normalize 53 1024 z 0 false with
  | S754_infinity _ =>
      raise (Exn OverflowError "int too large to convert to float")
  | f => ret f
  end.

(** The integer a [bool] or an [int] stands for in arithmetic. *)
Definition as_int (v : value) : option Z :=
  match v with
  | VBool b => Some (Z.b2z b)
  | VInt z => Some z
  | _ => None
  end.

Definition unsupported_add (a b : value) : exn :=
  Exn TypeError
    ("unsupported operand type(s) for +: '" ++ type_name a
       ++ "' and '" ++ type_name b ++ "'").

Definition cannot_concatenate (a b : value) : exn :=
  Exn TypeError
    ("can only concatenate " ++ type_name a ++ " (not " ++ dq
       ++ type_name b ++ dq ++ ") to " ++ type_name a).

(** [a + b] *)
Definition py_add (a b : value) : result value :=
  match a, b with
  | VStr s, VStr t => ret (VStr (s ++ t))
  | VStr _, _ => raise (cannot_concatenate a b)
  | VList l, VList m => ret (VList (l ++ m))
  | VList _, _ => raise (cannot_concatenate a b)
  | VFloat x, VFloat y => ret (VFloat (float_add x y))
  | VFloat x, _ =>
      match as_int b with
      | Some z => y <- float_of_int z ;; ret (VFloat (float_add x y))
      | None => raise (unsupported_add a b)
      end
  | _, _ =>
      match as_int a, b with
      | Some z, VFloat y => x <- float_of_int z ;; ret (VFloat (float_add x y))
      | Some z, _ =>
          match as_int b with
          | Some w => ret (VInt (z + w))
          | None => raise (unsupported_add a b)
          end
      | None, _ => raise (unsupported_add a b)
      end
  end.

(** ** [handle_request] *)

Definition text_content (text : string) : value :=
  VList [VDict [("type", VStr "text"); ("text", VStr text)]].

Definition initialize_result : value :=
  VDict
    [("protocolVersion", VStr "2024-11-05");
     ("capabilities", VDict [("tools", VDict [])]);
     ("serverInfo", VDict [("name", VStr "test-mcp"); ("version", VStr "1.0.0")])].

Definition echo_descriptor : value :=
  VDict
    [("name", VStr "echo");
     ("description", VStr "Echoes back the input text");
     ("inputSchema",
      VDict
        [("type", VStr "object");
         ("properties",
          VDict
            [("text",
              VDict [("type", VStr "string");
                     ("description", VStr "The text to echo")])]);
         ("required", VList [VStr "text"])])].

Definition add_descriptor : value :=
  VDict
    [("name", VStr "add");
     ("description", VStr "Adds two numbers together");
     ("inputSchema",
      VDict
        [("type", VStr "object");
         ("properties",
          VDict
            [("a",
              VDict [("type", VStr "number");
                     ("description", VStr "First number")]);
             ("b",
              VDict [("type", VStr "number");
                     ("description", VStr "Second number")])]);
         ("required", VList [VStr "a"; VStr "b"])])].

Definition tools_list_result : value :=
  VDict [("tools", VList [echo_descriptor; add_descriptor])].

Definition handle_request (req : value) : result value :=
  method <- py_get req "method" (VStr "") ;;
  if py_eq_str method "initialize" then
    ret initialize_result
  else if py_eq_str method "notifications/initialized" then
    (* Notification, no response needed *)
    ret VNone
  else if py_eq_str method "tools/list" then
    ret tools_list_result
  else if py_eq_str method "tools/call" then
    params <- py_get req "params" (VDict []) ;;
    tool_name <- py_get params "name" (VStr "") ;;
    args <- py_get params "arguments" (VDict []) ;;
    if py_eq_str tool_name "echo" then
      text <- py_get args "text" (VStr "") ;;
      s <- py_str text ;;
      ret (VDict [("content", text_content ("Echo: " ++ s))])
    else if py_eq_str tool_name "add" then
      a <- py_get args "a" (VInt 0) ;;
      b <- py_get args "b" (VInt 0) ;;
      sum <- py_add a b ;;
      sa <- py_str a ;;
      sb <- py_str b ;;
      ssum <- py_str sum ;;
      ret (VDict
             [("content",
               text_content ("Result: " ++ sa ++ " + " ++ sb ++ " = " ++ ssum))])
    else
      s <- py_str tool_name ;;
      ret (VDict
             [("content", text_content ("Unknown tool: " ++ s));
              ("isError", VBool true)])
  else
    ret (VDict []).

(** ** [main] *)

(** A line of standard input, by what [json.loads(line.strip())] does with
    it: it returns a value, raises [json.JSONDecodeError] (the line is not
    JSON), or raises another exception (a [RecursionError] on deep nesting,
    a [ValueError] on an integer literal past the digit limit). *)
Inductive loads_outcome : Type :=
| Decoded (v : value)
| JSONDecodeError
| Raised (e : exn).

(** The two dicts [main] prints. *)
Definition result_response (id result : value) : value :=
  VDict [("jsonrpc", VStr "2.0"); ("id", id); ("result", result)].

Definition error_response (id : value) (message : string) : value :=
  VDict
    [("jsonrpc", VStr "2.0");
     ("id", id);
     ("error", VDict [("code", VInt (-32603)); ("message", VStr message)])].

(** One pass through the body of the [for] loop: either it completes,
    having printed [printed] and leaving the local [req] bound as in
    [req'], or an exception leaves [main]. *)
Inductive iteration_outcome : Type :=
| Next (printed : list value) (req' : option value)
| Abort (e : exn).

(** Statements of the [try] block after [req] is assigned. *)
Definition try_body (req : value) : result (list value) :=
  result <- handle_request req ;;
  (* Only send response if there's an ID (not a notification) *)
  has_id <- py_contains "id" req ;;
  if has_id && negb (is_none result) then
    id <- py_getitem req "id" ;;
    ret [result_response id result]
  else
    ret [].

(** The clause [except Exception as e].  It reads the local [req], which
    holds the last value [json.loads] returned, if any; what the clause
    itself raises is not caught. *)
Definition except_Exception (req : option value) (e : exn) : iteration_outcome :=
  match req with
  | None =>
      Abort (Exn UnboundLocalError
               "cannot access local variable 'req' where it is not associated with a value")
  | Some r =>
      match py_contains "id" r with
      | inl e' => Abort e'
      | inr false => Next [] req
      | inr true =>
          match py_get r "id" VNone with
          | inl e' => Abort e'
          | inr id => Next [error_response id (exn_str e)] req
          end
      end
  end.

Definition iteration (req : option value) (line : loads_outcome) : iteration_outcome :=
  match line with
  | Decoded r =>
      match try_body r with
      | inr printed => Next printed (Some r)
      | inl e => except_Exception (Some r) e
      end
  | JSONDecodeError => Next [] req
  | Raised e => except_Exception req e
  end.

(** How [main] ends: standard input is exhausted, or an exception leaves
    it with [unread] lines not read. *)
Inductive termination : Type :=
| Exhausted
| Uncaught (e : exn) (unread : list loads_outcome).

(** The [for] loop from a given binding of [req]: the lines printed and
    how the loop ends. *)
Fixpoint main_loop (req : option value) (lines : list loads_outcome)
  : list value * termination :=
  match lines with
  | [] => ([], Exhausted)
  | line :: rest =>
      match iteration req line with
      | Next printed req' =>
          let (out, t) := main_loop req' rest in ((printed ++ out)%list, t)
      | Abort e => ([], Uncaught e rest)
      end
  end.

Definition main (stdin : list loads_outcome) : list value * termination :=
  main_loop None stdin.

End Server.

(** ** The CPython runtime

    The conversions of [PyRuntime] as CPython 3.11 performs them, to run
    the model on concrete lines. *)

(** Decimal digits of an integer. *)
Definition decimal (n : Z) : string := NilZero.string_of_int (Z.to_int n).

(** [str] of an [int] under [sys.set_int_max_str_digits(4300)], the
    default. *)
Definition cpython_int_str (z : Z) : result string :=
  if (4300 <? String.length (decimal (Z.abs z)))%nat then
    raise (Exn ValueError
             "Exceeds the limit (4300 digits) for integer string conversion; use sys.set_int_max_str_digits() to increase the limit")
  else ret (decimal z).

(** *** [repr] of a [float]

    Shortest-digits generation for a finite nonzero binary64 [m * 2^e]
    with [m] canonical: the scaled remainder [r / s] and the distances
    [mp / s] and [mm / s] to the midpoints with the neighbouring floats. *)
Record gen : Type := { g_r : Z; g_s : Z; g_mp : Z; g_mm : Z }.

Definition boundaries (m e : Z) : gen :=
  if 0 <=? e then
    if negb (m =? 2 ^ 52) then
      {| g_r := m * 2 ^ e * 2; g_s := 2; g_mp := 2 ^ e; g_mm := 2 ^ e |}
    else
      {| g_r := m * 2 ^ (e + 1) * 2; g_s := 4; g_mp := 2 ^ (e + 1); g_mm := 2 ^ e |}
  else
    if (e =? -1074) || negb (m =? 2 ^ 52) then
      {| g_r := m * 2; g_s := 2 ^ (1 - e); g_mp := 1; g_mm := 1 |}
    else
      {| g_r := m * 4; g_s := 2 ^ (2 - e); g_mp := 2; g_mm := 1 |}.

(** [num / den < 10^k], or [<=] when the upper midpoint does not round to
    the float. *)
Definition below_pow10 (incl : bool) (num den k : Z) : bool :=
  let '(a, b) :=
    if 0 <=? k then (num, den * 10 ^ k) else (num * 10 ^ (- k), den) in
  if incl then a <? b else a <=? b.

Fixpoint find_k (fuel : nat) (incl : bool) (num den k : Z) : Z :=
  match fuel with
  | O => k
  | S fuel' =>
      if below_pow10 incl num den k then k
      else find_k fuel' incl num den (k + 1)
  end.

(** A lower estimate of the decimal exponent of [num / den]. *)
Definition estimate_k (num den : Z) : Z :=
  let a := Z.log2 num - Z.log2 den - 1 in
  (if 0 <=? a then a * 30102 / 100000 else - ((- a) * 30103 / 100000 + 1)) - 1.

Fixpoint digits_loop (fuel : nat) (incl : bool) (r s mp mm : Z) : list Z :=
  match fuel with
  | O => []
  | S fuel' =>
      let d := (r * 10) / s in
      let r' := (r * 10) mod s in
      let mp' := mp * 10 in
      let mm' := mm * 10 in
      let tc1 := if incl then r' <=? mm' else r' <? mm' in
      let tc2 := if incl then s <=? r' + mp' else s <? r' + mp' in
      match tc1, tc2 with
      | false, false => d :: digits_loop fuel' incl r' s mp' mm'
      | true, false => [d]
      | false, true => [d + 1]
      | true, true => if r' * 2 <? s then [d] else [d + 1]
      end
  end.

(** The digits [d1 d2 ...] and the exponent [k] with
    [m * 2^e = 0.d1d2... * 10^k]. *)
Definition shortest_digits (m e : Z) : list Z * Z :=
  let g := boundaries m e in
  let incl := Z.even m in
  let k :=
    find_k 8 incl (g_r g + g_mp g) (g_s g)
      (estimate_k (g_r g + g_mp g) (g_s g)) in
  let '(r, s, mp, mm) :=
    if 0 <=? k then (g_r g, g_s g * 10 ^ k, g_mp g, g_mm g)
    else (g_r g * 10 ^ (- k), g_s g, g_mp g * 10 ^ (- k), g_mm g * 10 ^ (- k)) in
  (digits_loop 20 incl r s mp mm, k).

Fixpoint digits_str (ds : list Z) : string :=
  match ds with
  | [] => ""
  | d :: rest => decimal d ++ digits_str rest
  end.

Fixpoint zeros (n : nat) : string :=
  match n with
  | O => ""
  | S n' => "0" ++ zeros n'
  end.

(** Layout of the digits: exponent form when the decimal point falls
    outside of (-4, 16], positional otherwise. *)
Definition format_r (ds : list Z) (decpt : Z) : string :=
  let n := Z.of_nat (List.length ds) in
  if (decpt <=? -4) || (16 <? decpt) then
    let ex := decpt - 1 in
    let mant :=
      match ds with
      | [] => ""
      | [d] => decimal d
      | d :: rest => decimal d ++ "." ++ digits_str rest
      end in
    mant ++ "e" ++ (if ex <? 0 then "-" else "+")
         ++ (if Z.abs ex <? 10 then "0" else "") ++ decimal (Z.abs ex)
  else if decpt <=? 0 then
    "0." ++ zeros (Z.to_nat (- decpt)) ++ digits_str ds
  else if n <=? decpt then
    digits_str ds ++ zeros (Z.to_nat (decpt - n)) ++ ".0"
  else
    digits_str (firstn (Z.to_nat decpt) ds) ++ "."
      ++ digits_str (skipn (Z.to_nat decpt) ds).

Definition cpython_float_repr (f : spec_float) : string :=
  match f with
  | S754_nan => "nan"
  | S754_infinity false => "inf"
  | S754_infinity true => "-inf"
  | S754_zero false => "0.0"
  | S754_zero true => "-0.0"
  | S754_finite sign m e =>
      let '(ds, k) := shortest_digits (Zpos m) e in
      (if sign then "-" else "") ++ format_r ds k
  end.

(** *** [repr] of a [str] *)

Definition quote1 : ascii := ascii_of_nat 39.
Definition quote2 : ascii := ascii_of_nat 34.
Definition backslash : ascii := ascii_of_nat 92.

Fixpoint has_char (c : ascii) (s : string) : bool :=
  match s with
  | EmptyString => false
  | String c' s' => Ascii.eqb c c' || has_char c s'
  end.

Definition hex_digit (n : nat) : ascii :=
  ascii_of_nat (if (n <? 10)%nat then 48 + n else 87 + n).

(** One character between quotes [q].  A byte past 127 belongs to the
    encoding of a code point, taken to be printable. *)
Definition escape_char (q c : ascii) : string :=
  let n := nat_of_ascii c in
  if Ascii.eqb c q || Ascii.eqb c backslash then String backslash (String c "")
  else if (n =? 9)%nat then String backslash "t"
  else if (n =? 10)%nat then String backslash "n"
  else if (n =? 13)%nat then String backslash "r"
  else if (n <? 32)%nat || (n =? 127)%nat then
    String backslash
      (String "x" (String (hex_digit (n / 16)) (String (hex_digit (n mod 16)) "")))
  else String c "".

Fixpoint escape (q : ascii) (s : string) : string :=
  match s with
  | EmptyString => ""
  | String c s' => escape_char q c ++ escape q s'
  end.

Definition cpython_str_repr (s : string) : string :=
  let q := if has_char quote1 s && negb (has_char quote2 s) then quote2 else quote1 in
  String q (escape q s ++ String q "").

Definition cpython : PyRuntime :=
  {| int_str := cpython_int_str;
     float_repr := cpython_float_repr;
     str_repr := cpython_str_repr |}.

(** ** Vocabulary of the properties *)

(** The method names [handle_request] has a branch for. *)
Definition recognized_methods : list string :=
  ["initialize"; "notifications/initialized"; "tools/list"; "tools/call"].

(** [not v]: the values Python takes for false. *)
Definition is_falsy (v : value) : bool :=
  match v with
  | VNone => true
  | VBool b => negb b
  | VInt z => z =? 0
  | VFloat (S754_zero _) => true
  | VFloat _ => false
  | VStr s => String.eqb s ""
  | VList l => match l with [] => true | _ => false end
  | VDict d => match d with [] => true | _ => false end
  end.

(** The payload of the last branch of [tools/call]. *)
Definition unknown_tool_result (name : string) : value :=
  VDict [("content", text_content ("Unknown tool: " ++ name));
         ("isError", VBool true)].

(** A [tools/call] request for [name]. *)
Definition call_request (name : string) (args : value) : value :=
  VDict [("method", VStr "tools/call");
         ("params", VDict [("name", VStr name); ("arguments", args)])].

(** The [name] entry of a tool descriptor. *)
Definition descriptor_name (t : value) : option string :=
  match t with
  | VDict d =>
      match dict_lookup "name" d with
      | Some (VStr n) => Some n
      | _ => None
      end
  | _ => None
  end.

(** The tools of a [tools/list] result, by name. *)
Definition listed_names (listing : value) : list (option string) :=
  match listing with
  | VDict d =>
      match dict_lookup "tools" d with
      | Some (VList ts) => map descriptor_name ts
      | _ => []
      end
  | _ => []
  end.

(** What [main] prints for a decoded object with items [d]. *)
Definition reply {rt : PyRuntime} (d : list (string * value)) : list value :=
  match dict_lookup "id" d with
  | None => []
  | Some id =>
      match handle_request (VDict d) with
      | inl e => [error_response id (exn_str e)]
      | inr r => if is_none r then [] else [result_response id r]
      end
  end.

(** A tool is served when [tools/call] does not answer for it with the
    unknown-tool payload, whatever the arguments. *)
Definition served {rt : PyRuntime} (name : string) : Prop :=
  forall args, handle_request (call_request name args) <> ret (unknown_tool_result name).

(** Two objects that differ at most in the key [jsonrpc]. *)
Definition jsonrpc_variant (d1 d2 : list (string * value)) : Prop :=
  forall k, k <> "jsonrpc" -> dict_lookup k d1 = dict_lookup k d2.

(** Two values [json.loads] may return, equal or objects that differ at
    most in the key [jsonrpc]. *)
Inductive value_variant : value -> value -> Prop :=
| vv_same (v : value) : value_variant v v
| vv_object (d1 d2 : list (string * value)) :
    jsonrpc_variant d1 d2 -> value_variant (VDict d1) (VDict d2).

Inductive line_variant : loads_outcome -> loads_outcome -> Prop :=
| lv_same (l : loads_outcome) : line_variant l l
| lv_decoded (v1 v2 : value) :
    value_variant v1 v2 -> line_variant (Decoded v1) (Decoded v2).

Inductive binding_variant : option value -> option value -> Prop :=
| bv_unbound : binding_variant None None
| bv_bound (v1 v2 : value) :
    value_variant v1 v2 -> binding_variant (Some v1) (Some v2).

(** A line is a request when it decodes to an object. *)
Definition is_request (line : loads_outcome) : Prop :=
  exists d, line = Decoded (VDict d).

(** The value [req.get("method", "")] of an object. *)
Definition method_of (d : list (string * value)) : value :=
  match dict_lookup "method" d with
  | Some m => m
  | None => VStr ""
  end.

(** Inversion of a sequenced computation that returns: its first step
    returned. *)
Ltac bind_inv H :=
  match type of H with
  | bind ?c _ = inr _ =>
      let a := fresh "a" in
      let Ha := fresh "Ha" in
      destruct c as [? | a] eqn:Ha; cbn [bind] in H; [discriminate H |]
  end.

(** Outcomes of an iteration that print the same lines, and leave [req]
    bound alike or raise the same exception. *)
Inductive outcome_variant : iteration_outcome -> iteration_outcome -> Prop :=
| ov_next (printed : list value) (b1 b2 : option value) :
    binding_variant b1 b2 -> outcome_variant (Next printed b1) (Next printed b2)
| ov_abort (e : exn) : outcome_variant (Abort e) (Abort e).

Inductive termination_variant : termination -> termination -> Prop :=
| tv_exhausted : termination_variant Exhausted Exhausted
| tv_uncaught (e : exn) (unread1 unread2 : list loads_outcome) :
    Forall2 line_variant unread1 unread2 ->
    termination_variant (Uncaught e unread1) (Uncaught e unread2).

(** The shape of a printed line: [jsonrpc] is "2.0", then the [id], then
    either a [result] or an [error]. *)
Definition is_response (resp : value) : Prop :=
  exists id body,
    resp = VDict [("jsonrpc", VStr "2.0"); ("id", id); body]
    /\ (fst body = "result" \/ fst body = "error").

(** The value of [d.get(k, dflt)] on the items of a dict. *)
Definition get_default (d : list (string * value)) (k : string) (dflt : value)
  : value :=
  match dict_lookup k d with
  | Some x => x
  | None => dflt
  end.

(** The decoded values on which the clause [except Exception] raises: the
    test ["id" in req] raises on [None], a [bool], an [int] and a [float],
    and [req.get] raises after the test succeeded on a list with the
    element "id" or a string with the substring "id". *)
Definition fatal_value (v : value) : bool :=
  match v with
  | VDict _ => false
  | VList l => existsb (fun x => py_eq_str x "id") l
  | VStr s => str_contains "id" s
  | _ => true
  end.



(** A printed line in full: a [result] that is an object, or the error
    object with code -32603. *)
Definition well_formed_response (resp : value) : Prop :=
  exists id,
    (exists items, resp = result_response id (VDict items))
    \/ (exists message, resp = error_response id message).


(** Unfolds [handle_request] on an object up to the calls of [get], and
    decides the comparisons with literals. *)
Ltac dispatch :=
  unfold handle_request, get_default in *;
  cbn [py_get bind ret].

Ltac lits :=
  cbn [py_eq_str String.eqb Ascii.eqb Bool.eqb py_get bind ret raise].

(** *** Sample lines *)

(** The items of [{"jsonrpc": "2.0", "id": id, "method": method}]. *)
Definition request (id : value) (method : string) : list (string * value) :=
  [("jsonrpc", VStr "2.0"); ("id", id); ("method", VStr method)].

(** The items of [{"jsonrpc": "2.0", "method": method}]. *)
Definition notification (method : string) : list (string * value) :=
  [("jsonrpc", VStr "2.0"); ("method", VStr method)].

(** The items of a [tools/call] request, with an [id] when one is given. *)
Definition tool_call (id : option value) (name : string) (args : value)
  : list (string * value) :=
  (("jsonrpc", VStr "2.0")
   :: match id with Some i => [("id", i)] | None => [] end)
  ++ [("method", VStr "tools/call");
      ("params", VDict [("name", VStr name); ("arguments", args)])].

(** * Properties *)

Section Protocol.

Context {rt : PyRuntime}.

(** ** Comparisons with a literal *)

Lemma py_eq_str_true (v : value) (s : string) :
  py_eq_str v s = true -> v = VStr s.
Proof.
  destruct v; simpl; try discriminate.
  intros H. apply String.eqb_eq in H. now subst.
Qed.

Lemma py_eq_str_false (v : value) (s : string) :
  v <> VStr s -> py_eq_str v s = false.
Proof.
  intros H. destruct (py_eq_str v s) eqn:E; [| reflexivity].
  apply py_eq_str_true in E. contradiction.
Qed.

Lemma py_eq_str_name (n s : string) :
  n <> s -> py_eq_str (VStr n) s = false.
Proof. intros H. apply py_eq_str_false. congruence. Qed.

Lemma method_of_neq (d : list (string * value)) (s : string) :
  s <> "" ->
  dict_lookup "method" d <> Some (VStr s) ->
  py_eq_str (method_of d) s = false.
Proof.
  intros Hs H. apply py_eq_str_false. unfold method_of.
  destruct (dict_lookup "method" d); congruence.
Qed.

(** ** The branches of [handle_request] *)

Lemma handle_request_method (d : list (string * value)) :
  handle_request (VDict d) =
  (if py_eq_str (method_of d) "initialize" then ret initialize_result
   else if py_eq_str (method_of d) "notifications/initialized" then ret VNone
   else if py_eq_str (method_of d) "tools/list" then ret tools_list_result
   else if py_eq_str (method_of d) "tools/call" then
     handle_request (VDict [("method", VStr "tools/call");
                            ("params", match dict_lookup "params" d with
                                       | Some p => p
                                       | None => VDict []
                                       end)])
   else ret (VDict [])).
Proof.
  unfold handle_request, method_of. cbn [py_get bind ret].
  destruct (py_eq_str _ "initialize"); [reflexivity |].
  destruct (py_eq_str _ "notifications/initialized"); [reflexivity |].
  destruct (py_eq_str _ "tools/list"); [reflexivity |].
  destruct (py_eq_str _ "tools/call"); reflexivity.
Qed.

Lemma handle_request_notification (d : list (string * value)) :
  dict_lookup "method" d = Some (VStr "notifications/initialized") ->
  handle_request (VDict d) = ret VNone.
Proof.
  intros H. rewrite handle_request_method. unfold method_of. rewrite H.
  reflexivity.
Qed.

Lemma handle_request_tools_list (d : list (string * value)) :
  dict_lookup "method" d = Some (VStr "tools/list") ->
  handle_request (VDict d) = ret tools_list_result.
Proof.
  intros H. rewrite handle_request_method. unfold method_of. rewrite H.
  reflexivity.
Qed.

Lemma handle_request_fallback (d : list (string * value)) :
  (forall m, In m recognized_methods -> dict_lookup "method" d <> Some (VStr m)) ->
  handle_request (VDict d) = ret (VDict []).
Proof.
  intros H. rewrite handle_request_method.
  rewrite !method_of_neq; try reflexivity; try discriminate;
    apply H; simpl; auto.
Qed.

Lemma handle_request_unknown_tool (d p : list (string * value)) (n : string) :
  dict_lookup "method" d = Some (VStr "tools/call") ->
  dict_lookup "params" d = Some (VDict p) ->
  dict_lookup "name" p = Some (VStr n) ->
  n <> "echo" -> n <> "add" ->
  handle_request (VDict d) = ret (unknown_tool_result n).
Proof.
  intros Hm Hp Hn He Ha.
  unfold handle_request. cbn [py_get bind ret]. rewrite Hm, Hp.
  cbn [py_eq_str String.eqb Ascii.eqb Bool.eqb py_get bind ret].
  rewrite Hn, (py_eq_str_name n "echo" He), (py_eq_str_name n "add" Ha).
  reflexivity.
Qed.

(** Only the notification branch returns [None]. *)
Lemma handle_request_none (d : list (string * value)) :
  handle_request (VDict d) = ret VNone ->
  dict_lookup "method" d = Some (VStr "notifications/initialized").
Proof.
  rewrite handle_request_method.
  destruct (py_eq_str (method_of d) "initialize"); [discriminate |].
  destruct (py_eq_str (method_of d) "notifications/initialized") eqn:E.
  - intros _. apply py_eq_str_true in E. unfold method_of in E.
    destruct (dict_lookup "method" d); [congruence | discriminate].
  - destruct (py_eq_str (method_of d) "tools/list"); [discriminate |].
    destruct (py_eq_str (method_of d) "tools/call"); [| discriminate].
    unfold handle_request.
    cbn [py_get bind ret dict_lookup String.eqb Ascii.eqb Bool.eqb py_eq_str].
    intros H. exfalso. unfold ret in H.
    bind_inv H. bind_inv H.
    destruct (py_eq_str a "echo").
    + bind_inv H. bind_inv H. discriminate.
    + destruct (py_eq_str a "add").
      * repeat bind_inv H. discriminate.
      * bind_inv H. discriminate.
Qed.

(** ** One iteration on a request *)

Lemma iteration_request (st : option value) (d : list (string * value)) :
  iteration st (Decoded (VDict d)) = Next (reply d) (Some (VDict d)).
Proof.
  unfold iteration, try_body, except_Exception, reply.
  destruct (handle_request (VDict d)) as [e | r];
    cbn [bind ret py_contains py_get py_getitem];
    destruct (dict_lookup "id" d) as [id |]; cbn [bind ret andb];
    try reflexivity.
  destruct (is_none r); reflexivity.
Qed.

Lemma reply_with_id (d : list (string * value)) (id : value) :
  dict_lookup "id" d = Some id ->
  dict_lookup "method" d <> Some (VStr "notifications/initialized") ->
  exists resp,
    reply d = [resp]
    /\ ((exists r, handle_request (VDict d) = ret r /\ resp = result_response id r)
        \/ (exists e, handle_request (VDict d) = raise e
                      /\ resp = error_response id (exn_str e))).
Proof.
  intros Hid Hm. unfold reply. rewrite Hid.
  destruct (handle_request (VDict d)) as [e | r] eqn:E.
  - eexists. split; [reflexivity |]. right. eauto.
  - destruct r; cbn [is_none];
      try (eexists; split; [reflexivity |]; left; eauto).
    exfalso. apply Hm. now apply handle_request_none.
Qed.

Lemma reply_is_response (d : list (string * value)) :
  Forall is_response (reply d).
Proof.
  unfold reply.
  destruct (dict_lookup "id" d) as [id |]; [| constructor].
  destruct (handle_request (VDict d)) as [e | r].
  - repeat constructor. eexists _, (_, _). split; [reflexivity |]. now right.
  - destruct (is_none r); repeat constructor.
    eexists _, (_, _). split; [reflexivity |]. now left.
Qed.

(** ** The [except Exception] clause *)

Lemma except_Exception_request (d : list (string * value)) (e : exn) :
  except_Exception (Some (VDict d)) e =
  Next (match dict_lookup "id" d with
        | Some id => [error_response id (exn_str e)]
        | None => []
        end) (Some (VDict d)).
Proof.
  unfold except_Exception. cbn [py_contains py_get ret].
  destruct (dict_lookup "id" d); reflexivity.
Qed.

Lemma except_Exception_prints (b b' : option value) (e : exn) (printed : list value) :
  except_Exception b e = Next printed b' -> Forall is_response printed.
Proof.
  unfold except_Exception.
  destruct b as [r |]; [| discriminate].
  destruct (py_contains "id" r) as [e' | [|]]; try discriminate.
  - destruct (py_get r "id" VNone) as [e' | id]; [discriminate |].
    intros H. injection H as <- _. repeat constructor.
    eexists _, (_, _). split; [reflexivity |]. now right.
  - intros H. injection H as <- _. constructor.
Qed.

(** A decoded value that is not an object reaches the clause with the
    [AttributeError] of [req.get]. *)
Lemma iteration_not_object (st : option value) (r : value) :
  (forall d, r <> VDict d) ->
  iteration st (Decoded r) =
  except_Exception (Some r)
    (Exn AttributeError ("'" ++ type_name r ++ "' object has no attribute 'get'")).
Proof.
  intros H. destruct r; try reflexivity. now contradiction (H d).
Qed.

(** ** Sessions of requests *)

(** A line that is not JSON, or that decodes to an object, never takes the
    loop down. *)
Lemma iteration_object_or_garbage (st : option value) (line : loads_outcome) :
  line = JSONDecodeError \/ is_request line ->
  exists printed st', iteration st line = Next printed st'.
Proof.
  intros [-> | [d ->]].
  - simpl. eauto.
  - rewrite iteration_request. eauto.
Qed.

Lemma main_loop_requests_exhaust (lines : list loads_outcome) :
  Forall (fun line => line = JSONDecodeError \/ is_request line) lines ->
  forall st, snd (main_loop st lines) = Exhausted.
Proof.
  induction 1 as [| line lines Hl _ IH]; intros st; simpl; [reflexivity |].
  destruct (iteration_object_or_garbage st line Hl) as [printed [st' ->]].
  specialize (IH st'). destruct (main_loop st' lines). exact IH.
Qed.

(** ** Independence of [jsonrpc] *)

Lemma literal_neq_jsonrpc_method : "method" <> "jsonrpc".
Proof. discriminate. Qed.

Lemma literal_neq_jsonrpc_params : "params" <> "jsonrpc".
Proof. discriminate. Qed.

Lemma literal_neq_jsonrpc_id : "id" <> "jsonrpc".
Proof. discriminate. Qed.

Lemma handle_request_variant (d1 d2 : list (string * value)) :
  jsonrpc_variant d1 d2 ->
  handle_request (VDict d1) = handle_request (VDict d2).
Proof.
  intros H. unfold handle_request. cbn [py_get bind ret].
  rewrite (H "method" literal_neq_jsonrpc_method).
  rewrite (H "params" literal_neq_jsonrpc_params).
  reflexivity.
Qed.

Lemma reply_variant (d1 d2 : list (string * value)) :
  jsonrpc_variant d1 d2 -> reply d1 = reply d2.
Proof.
  intros H. unfold reply.
  rewrite (H "id" literal_neq_jsonrpc_id), (handle_request_variant d1 d2 H).
  reflexivity.
Qed.

Lemma value_variant_refl_binding (b : option value) : binding_variant b b.
Proof. destruct b; constructor. constructor. Qed.

Lemma outcome_variant_refl (o : iteration_outcome) : outcome_variant o o.
Proof. destruct o; constructor. apply value_variant_refl_binding. Qed.

Lemma except_Exception_variant (b1 b2 : option value) (e : exn) :
  binding_variant b1 b2 ->
  outcome_variant (except_Exception b1 e) (except_Exception b2 e).
Proof.
  intros [| v1 v2 [v | d1 d2 H]].
  - apply outcome_variant_refl.
  - apply outcome_variant_refl.
  - rewrite !except_Exception_request.
    rewrite (H "id" literal_neq_jsonrpc_id).
    constructor. constructor. now constructor.
Qed.

Lemma iteration_variant (b1 b2 : option value) (l1 l2 : loads_outcome) :
  binding_variant b1 b2 -> line_variant l1 l2 ->
  outcome_variant (iteration b1 l1) (iteration b2 l2).
Proof.
  intros Hb Hl.
  assert (Hsame : forall l, outcome_variant (iteration b1 l) (iteration b2 l)).
  { intros [r | | e]; simpl.
    - destruct (try_body r); apply outcome_variant_refl.
    - now constructor.
    - now apply except_Exception_variant. }
  destruct Hl as [l | v1 v2 [v | d1 d2 H]]; try apply Hsame.
  rewrite !iteration_request, (reply_variant d1 d2 H).
  constructor. constructor. now constructor.
Qed.

Lemma main_loop_variant (l1 l2 : list loads_outcome) :
  Forall2 line_variant l1 l2 ->
  forall b1 b2, binding_variant b1 b2 ->
  fst (main_loop b1 l1) = fst (main_loop b2 l2)
  /\ termination_variant (snd (main_loop b1 l1)) (snd (main_loop b2 l2)).
Proof.
  induction 1 as [| x y xs ys Hxy Hrest IH]; intros b1 b2 Hb; simpl.
  - split; [reflexivity | constructor].
  - destruct (iteration_variant b1 b2 x y Hb Hxy) as [printed c1 c2 Hc | e].
    + specialize (IH c1 c2 Hc).
      destruct (main_loop c1 xs), (main_loop c2 ys). simpl in *.
      destruct IH as [-> Ht]. now split.
    + simpl. split; [reflexivity |]. now constructor.
Qed.

Lemma main_loop_prints_responses (lines : list loads_outcome) :
  forall st, Forall is_response (fst (main_loop st lines)).
Proof.
  induction lines as [| line lines IH]; intros st; simpl; [constructor |].
  destruct (iteration st line) as [printed st' |] eqn:E; [| constructor].
  specialize (IH st'). destruct (main_loop st' lines). simpl in *.
  apply Forall_app. split; [| exact IH].
  destruct line as [r | | e].
  - destruct r as [| b | z | f | s | vs | d];
      try (rewrite iteration_not_object in E by discriminate;
           eapply except_Exception_prints; exact E).
    rewrite iteration_request in E. injection E as <- _.
    apply reply_is_response.
  - injection E as <- _. constructor.
  - eapply except_Exception_prints; exact E.
Qed.

End Protocol.

(** * The protocol contract *)

Section Contract.

Context {rt : PyRuntime}.

(** A request that carries an [id] and is not the initialized notification
    is answered by one line, which echoes the [id]. *)
Lemma iteration_with_id (st : option value) (d : list (string * value)) (id : value) :
  dict_lookup "id" d = Some id ->
  dict_lookup "method" d <> Some (VStr "notifications/initialized") ->
  exists resp,
    iteration st (Decoded (VDict d)) = Next [resp] (Some (VDict d))
    /\ py_getitem resp "id" = ret id
    /\ ((exists r, resp = result_response id r)
        \/ (exists msg, resp = error_response id msg)).
Proof.
  intros Hid Hm.
  destruct (reply_with_id d id Hid Hm) as [resp [Hr [[r [_ ->]] | [e [_ ->]]]]];
    eexists; rewrite iteration_request, Hr; (split; [reflexivity |]);
    (split; [reflexivity |]); eauto.
Qed.

(** C1, amended: for every request that carries the key [id] and whose
    method is not the notification [notifications/initialized], processing
    the line prints exactly one Response, a result or an error, whose [id]
    is the request's [id]. *)
Theorem one_response_with_the_request_id
    (st : option value) (d : list (string * value)) (id : value) :
  dict_lookup "id" d = Some id ->
  dict_lookup "method" d <> Some (VStr "notifications/initialized") ->
  exists resp,
    iteration st (Decoded (VDict d)) = Next [resp] (Some (VDict d))
    /\ py_getitem resp "id" = ret id
    /\ ((exists r, resp = result_response id r)
        \/ (exists msg, resp = error_response id msg)).
Proof. exact (iteration_with_id st d id). Qed.

(** C2: a request without the key [id] prints nothing and the loop goes on
    to the next line, whichever branch [handle_request] takes and whether
    it returns or raises. *)
Theorem no_response_without_id (st : option value) (d : list (string * value)) :
  dict_lookup "id" d = None ->
  iteration st (Decoded (VDict d)) = Next [] (Some (VDict d))
  /\ forall rest, main_loop st (Decoded (VDict d) :: rest)
                  = main_loop (Some (VDict d)) rest.
Proof.
  intros Hid.
  assert (E : iteration st (Decoded (VDict d)) = Next [] (Some (VDict d))).
  { rewrite iteration_request. unfold reply. now rewrite Hid. }
  split; [exact E |].
  intros rest. cbn [main_loop]. rewrite E.
  now destruct (main_loop (Some (VDict d)) rest).
Qed.

(** C3: for the method [notifications/initialized] the dispatcher returns
    [None] and nothing is printed, with or without an [id] in the
    request. *)
Theorem initialized_notification_is_silent
    (st : option value) (d : list (string * value)) :
  dict_lookup "method" d = Some (VStr "notifications/initialized") ->
  handle_request (VDict d) = ret VNone
  /\ iteration st (Decoded (VDict d)) = Next [] (Some (VDict d)).
Proof.
  intros Hm. split; [now apply handle_request_notification |].
  rewrite iteration_request. unfold reply.
  rewrite (handle_request_notification d Hm).
  now destruct (dict_lookup "id" d).
Qed.

(** C4, on the code: a line that holds a JSON number takes the session
    down.  [handle_request] raises [AttributeError], the clause
    [except Exception] evaluates ["id" in req] on the number, and the
    [TypeError] of that test leaves [main]: nothing is printed and the
    lines after it are never read. *)
Theorem number_line_ends_the_session
    (st : option value) (z : Z) (rest : list loads_outcome) :
  main_loop st (Decoded (VInt z) :: rest) =
  ([], Uncaught (Exn TypeError "argument of type 'int' is not iterable") rest).
Proof. reflexivity. Qed.

(** C5: when [handle_request] raises on a request, the line printed is the
    error Response with code -32603 and the text of the exception if the
    request carries the key [id], and nothing is printed if it does not;
    either way the loop goes on. *)
Theorem handler_fault_reported_iff_id
    (st : option value) (d : list (string * value)) (e : exn) :
  handle_request (VDict d) = raise e ->
  iteration st (Decoded (VDict d)) =
  Next (match dict_lookup "id" d with
        | Some id =>
            [VDict [("jsonrpc", VStr "2.0");
                    ("id", id);
                    ("error", VDict [("code", VInt (-32603));
                                     ("message", VStr (exn_str e))])]]
        | None => []
        end) (Some (VDict d)).
Proof.
  intros H. rewrite iteration_request. unfold reply. rewrite H.
  now destruct (dict_lookup "id" d).
Qed.

(** C6: a [tools/call] request with an [id] that names a tool other than
    [echo] and [add] is answered by a [result] Response whose payload has
    [isError] true and one text item, "Unknown tool: " followed by the
    name. *)
Theorem unknown_tool_is_an_error_result
    (st : option value) (d p : list (string * value)) (id : value) (n : string) :
  dict_lookup "id" d = Some id ->
  dict_lookup "method" d = Some (VStr "tools/call") ->
  dict_lookup "params" d = Some (VDict p) ->
  dict_lookup "name" p = Some (VStr n) ->
  n <> "echo" -> n <> "add" ->
  iteration st (Decoded (VDict d)) =
  Next [VDict
          [("jsonrpc", VStr "2.0");
           ("id", id);
           ("result",
            VDict [("content",
                    VList [VDict [("type", VStr "text");
                                  ("text", VStr ("Unknown tool: " ++ n))]]);
                   ("isError", VBool true)])]]
       (Some (VDict d)).
Proof.
  intros Hid Hm Hp Hn He Ha.
  rewrite iteration_request. unfold reply.
  rewrite Hid, (handle_request_unknown_tool d p n Hm Hp Hn He Ha).
  reflexivity.
Qed.

(** C7, amended: a request whose [id] key holds a falsy value (0, the
    empty string, [false], [null], an empty array or object) and whose
    method is not [notifications/initialized] is answered by exactly one
    Response, which echoes that value as its [id]. *)
Theorem falsy_id_is_an_id
    (st : option value) (d : list (string * value)) (id : value) :
  is_falsy id = true ->
  dict_lookup "id" d = Some id ->
  dict_lookup "method" d <> Some (VStr "notifications/initialized") ->
  exists resp,
    iteration st (Decoded (VDict d)) = Next [resp] (Some (VDict d))
    /\ py_getitem resp "id" = ret id
    /\ ((exists r, resp = result_response id r)
        \/ (exists msg, resp = error_response id msg)).
Proof. intros _. exact (iteration_with_id st d id). Qed.

(** C8: a request with an [id] whose method is none of [initialize],
    [notifications/initialized], [tools/list] and [tools/call] (the key
    may also be missing, or hold something that is not a string) is
    answered by the Response with the empty object for [result]. *)
Theorem unrecognized_method_gets_empty_result
    (st : option value) (d : list (string * value)) (id : value) :
  dict_lookup "id" d = Some id ->
  (forall m, In m recognized_methods -> dict_lookup "method" d <> Some (VStr m)) ->
  iteration st (Decoded (VDict d)) =
  Next [VDict [("jsonrpc", VStr "2.0"); ("id", id); ("result", VDict [])]]
       (Some (VDict d)).
Proof.
  intros Hid Hm. rewrite iteration_request. unfold reply.
  rewrite Hid, (handle_request_fallback d Hm). reflexivity.
Qed.

Lemma served_echo : served "echo".
Proof.
  intros args. unfold handle_request, call_request.
  cbn [py_get bind ret dict_lookup String.eqb Ascii.eqb Bool.eqb py_eq_str].
  intros H. unfold ret in H. repeat bind_inv H. discriminate.
Qed.

Lemma served_add : served "add".
Proof.
  intros args. unfold handle_request, call_request.
  cbn [py_get bind ret dict_lookup String.eqb Ascii.eqb Bool.eqb py_eq_str].
  intros H. unfold ret in H. repeat bind_inv H. discriminate.
Qed.

Lemma served_listed (n : string) : served n -> n = "echo" \/ n = "add".
Proof.
  intros H.
  destruct (string_dec n "echo") as [| He]; [now left |].
  destruct (string_dec n "add") as [| Ha]; [now right |].
  exfalso. apply (H (VDict [])).
  now apply handle_request_unknown_tool
    with (p := [("name", VStr n); ("arguments", VDict [])]).
Qed.

(** C9: the result of [tools/list] names the tools [tools/call] serves,
    [echo] then [add], each once; sending the same [tools/list] line twice
    prints the same listing twice. *)
Theorem discovery_lists_the_tools (st : option value) (d : list (string * value)) :
  dict_lookup "method" d = Some (VStr "tools/list") ->
  exists listing printed,
    handle_request (VDict d) = ret listing
    /\ listed_names listing = [Some "echo"; Some "add"]
    /\ NoDup (listed_names listing)
    /\ (forall n, In (Some n) (listed_names listing) <-> served n)
    /\ printed = match dict_lookup "id" d with
                 | Some id => [result_response id listing]
                 | None => []
                 end
    /\ main_loop st [Decoded (VDict d)] = (printed, Exhausted)
    /\ main_loop st [Decoded (VDict d); Decoded (VDict d)]
       = ((printed ++ printed)%list, Exhausted).
Proof.
  intros Hm. exists tools_list_result, (reply d).
  split; [now apply handle_request_tools_list |].
  split; [reflexivity |].
  split.
  { repeat constructor; simpl; intuition discriminate. }
  split.
  { intros n. split.
    - intros [E | [E | []]]; injection E as <-; [apply served_echo | apply served_add].
    - intros H. destruct (served_listed n H) as [-> | ->]; simpl; auto. }
  split.
  { unfold reply. rewrite (handle_request_tools_list d Hm).
    now destruct (dict_lookup "id" d). }
  cbn [main_loop]. rewrite !iteration_request.
  now rewrite !app_nil_r.
Qed.

(** C10: two sessions whose lines are the same except that requests may
    differ in the key [jsonrpc] (present or not, and with any value) print
    the same lines and end the same way; every printed line carries
    [jsonrpc] "2.0". *)
Theorem output_independent_of_jsonrpc (stdin1 stdin2 : list loads_outcome) :
  Forall2 line_variant stdin1 stdin2 ->
  fst (main stdin1) = fst (main stdin2)
  /\ termination_variant (snd (main stdin1)) (snd (main stdin2))
  /\ Forall (fun resp => py_getitem resp "jsonrpc" = ret (VStr "2.0"))
       (fst (main stdin1)).
Proof.
  intros H. unfold main.
  destruct (main_loop_variant stdin1 stdin2 H None None bv_unbound) as [Ho Ht].
  split; [exact Ho |]. split; [exact Ht |].
  eapply Forall_impl; [| apply main_loop_prints_responses].
  intros resp [id [body [-> _]]]. reflexivity.
Qed.

End Contract.

(** * The contract on concrete lines, under CPython *)

(** Scenario 1: [initialize] with [id] 1. *)
Example scenario_initialize :
  main (rt := cpython) [Decoded (VDict (request (VInt 1) "initialize"))] =
  ([result_response (VInt 1) initialize_result], Exhausted).
Proof. reflexivity. Qed.

(** Scenario 2: a notification prints no line. *)
Example scenario_notification :
  main (rt := cpython) [Decoded (VDict (notification "initialized"))] =
  ([], Exhausted).
Proof. reflexivity. Qed.

(** Scenario 3: [add] of 2 and 3. *)
Example scenario_add :
  main (rt := cpython)
    [Decoded (VDict (tool_call (Some (VInt 2)) "add"
                       (VDict [("a", VInt 2); ("b", VInt 3)])))] =
  ([result_response (VInt 2)
      (VDict [("content", text_content "Result: 2 + 3 = 5")])], Exhausted).
Proof. vm_compute. reflexivity. Qed.

(** Scenario 4: a tool that does not exist. *)
Example scenario_bogus_tool :
  main (rt := cpython)
    [Decoded (VDict (tool_call (Some (VInt 3)) "bogus" (VDict [])))] =
  ([result_response (VInt 3) (unknown_tool_result "bogus")], Exhausted).
Proof. reflexivity. Qed.

(** Scenario 5: a line that is not JSON is skipped, the next one is
    served. *)
Example scenario_not_json :
  main (rt := cpython)
    [JSONDecodeError; Decoded (VDict (request (VInt 1) "initialize"))] =
  ([result_response (VInt 1) initialize_result], Exhausted).
Proof. reflexivity. Qed.

(** [echo] of a list, and [add] of two floats: 0.1 + 0.2. *)
Example echo_formats_with_str :
  handle_request (rt := cpython)
    (call_request "echo"
       (VDict [("text", VList [VStr "a"; VNone; VBool true; VInt (-7)])])) =
  ret (VDict [("content", text_content "Echo: ['a', None, True, -7]")]).
Proof. vm_compute. reflexivity. Qed.

Example add_of_floats :
  handle_request (rt := cpython)
    (call_request "add"
       (VDict [("a", VFloat (S754_finite false 3602879701896397 (-55)));
               ("b", VFloat (S754_finite false 3602879701896397 (-54)))])) =
  ret (VDict [("content",
               text_content "Result: 0.1 + 0.2 = 0.30000000000000004")]).
Proof. vm_compute. reflexivity. Qed.

(** A line that raises in [json.loads] something else than
    [JSONDecodeError] is answered with the [id] of the request before
    it. *)
Example stale_request_is_answered_again :
  main (rt := cpython)
    [Decoded (VDict (request (VInt 1) "initialize"));
     Raised (Exn RecursionError
               "maximum recursion depth exceeded while decoding a JSON array from a unicode string")] =
  ([result_response (VInt 1) initialize_result;
    error_response (VInt 1)
      "maximum recursion depth exceeded while decoding a JSON array from a unicode string"],
   Exhausted).
Proof. reflexivity. Qed.

(** Lines on which the clause [except Exception] itself raises: a list
    that holds "id", and a first line on which [json.loads] raises while
    [req] is not bound yet. *)
Example list_with_id_ends_the_session :
  main (rt := cpython) [Decoded (VList [VStr "id"]); JSONDecodeError] =
  ([], Uncaught (Exn AttributeError "'list' object has no attribute 'get'")
         [JSONDecodeError]).
Proof. reflexivity. Qed.

Example first_line_fault_ends_the_session :
  main (rt := cpython) [Raised (Exn ValueError "x"); JSONDecodeError] =
  ([], Uncaught
         (Exn UnboundLocalError
            "cannot access local variable 'req' where it is not associated with a value")
         [JSONDecodeError]).
Proof. reflexivity. Qed.

(** ** Witnesses and counterexamples *)

(** C1 as stated fails on the initialized notification sent with an [id]:
    the request carries [id] 1 and no line is printed. *)
Lemma initialized_with_id_is_not_answered :
  dict_lookup "id" (request (VInt 1) "notifications/initialized") = Some (VInt 1)
  /\ main (rt := cpython)
       [Decoded (VDict (request (VInt 1) "notifications/initialized"))]
     = ([], Exhausted).
Proof. split; reflexivity. Qed.

Lemma one_response_with_the_request_id_witness :
  dict_lookup "id" (request (VInt 1) "initialize") = Some (VInt 1)
  /\ dict_lookup "method" (request (VInt 1) "initialize")
     <> Some (VStr "notifications/initialized")
  /\ exists resp,
       iteration (rt := cpython) None (Decoded (VDict (request (VInt 1) "initialize")))
       = Next [resp] (Some (VDict (request (VInt 1) "initialize")))
       /\ py_getitem (rt := cpython) resp "id" = ret (VInt 1)
       /\ ((exists r, resp = result_response (VInt 1) r)
           \/ (exists msg, resp = error_response (VInt 1) msg)).
Proof.
  split; [reflexivity |]. split; [discriminate |].
  apply (one_response_with_the_request_id (rt := cpython) None
           (request (VInt 1) "initialize") (VInt 1));
    [reflexivity | discriminate].
Defined.

(** A notification on which the handler raises: ["x" + 0]. *)
Lemma no_response_without_id_witness :
  dict_lookup "id" (tool_call None "add" (VDict [("a", VStr "x")])) = None
  /\ iteration (rt := cpython) None
       (Decoded (VDict (tool_call None "add" (VDict [("a", VStr "x")]))))
     = Next [] (Some (VDict (tool_call None "add" (VDict [("a", VStr "x")])))).
Proof.
  split; [reflexivity |].
  apply (no_response_without_id (rt := cpython) None
           (tool_call None "add" (VDict [("a", VStr "x")]))).
  reflexivity.
Defined.

Lemma initialized_notification_is_silent_witness :
  dict_lookup "method" (request (VInt 7) "notifications/initialized")
  = Some (VStr "notifications/initialized")
  /\ iteration (rt := cpython) None
       (Decoded (VDict (request (VInt 7) "notifications/initialized")))
     = Next [] (Some (VDict (request (VInt 7) "notifications/initialized"))).
Proof.
  split; [reflexivity |].
  apply (initialized_notification_is_silent (rt := cpython) None
           (request (VInt 7) "notifications/initialized")).
  reflexivity.
Defined.

Lemma handler_fault_reported_iff_id_witness :
  handle_request (rt := cpython)
    (VDict (tool_call (Some (VInt 6)) "add" (VDict [("a", VStr "x"); ("b", VInt 1)])))
  = raise (cannot_concatenate (VStr "x") (VInt 1))
  /\ iteration (rt := cpython) None
       (Decoded (VDict (tool_call (Some (VInt 6)) "add"
                          (VDict [("a", VStr "x"); ("b", VInt 1)]))))
     = Next [error_response (VInt 6)
               (exn_str (cannot_concatenate (VStr "x") (VInt 1)))]
         (Some (VDict (tool_call (Some (VInt 6)) "add"
                         (VDict [("a", VStr "x"); ("b", VInt 1)])))).
Proof.
  split; [reflexivity |].
  apply (handler_fault_reported_iff_id (rt := cpython) None
           (tool_call (Some (VInt 6)) "add" (VDict [("a", VStr "x"); ("b", VInt 1)]))
           (cannot_concatenate (VStr "x") (VInt 1))).
  reflexivity.
Defined.

Lemma unknown_tool_is_an_error_result_witness :
  iteration (rt := cpython) None
    (Decoded (VDict (tool_call (Some (VInt 3)) "bogus" (VDict []))))
  = Next [result_response (VInt 3) (unknown_tool_result "bogus")]
      (Some (VDict (tool_call (Some (VInt 3)) "bogus" (VDict [])))).
Proof.
  apply (unknown_tool_is_an_error_result (rt := cpython) None
           (tool_call (Some (VInt 3)) "bogus" (VDict []))
           [("name", VStr "bogus"); ("arguments", VDict [])]
           (VInt 3) "bogus");
    try reflexivity; discriminate.
Defined.

(** C7 as stated fails on the initialized notification sent with [id] 0:
    the key is there, its value is falsy, and no line is printed. *)
Lemma initialized_with_id_zero_is_not_answered :
  is_falsy (VInt 0) = true
  /\ dict_lookup "id" (request (VInt 0) "notifications/initialized") = Some (VInt 0)
  /\ main (rt := cpython)
       [Decoded (VDict (request (VInt 0) "notifications/initialized"))]
     = ([], Exhausted).
Proof. repeat split; reflexivity. Qed.

Lemma falsy_id_is_an_id_witness :
  is_falsy (VStr "") = true
  /\ exists resp,
       iteration (rt := cpython) None (Decoded (VDict (request (VStr "") "tools/list")))
       = Next [resp] (Some (VDict (request (VStr "") "tools/list")))
       /\ py_getitem (rt := cpython) resp "id" = ret (VStr "")
       /\ ((exists r, resp = result_response (VStr "") r)
           \/ (exists msg, resp = error_response (VStr "") msg)).
Proof.
  split; [reflexivity |].
  apply (falsy_id_is_an_id (rt := cpython) None
           (request (VStr "") "tools/list") (VStr ""));
    [reflexivity | reflexivity | discriminate].
Defined.

Lemma unrecognized_method_gets_empty_result_witness :
  iteration (rt := cpython) None (Decoded (VDict (request (VInt 9) "ping")))
  = Next [result_response (VInt 9) (VDict [])]
      (Some (VDict (request (VInt 9) "ping"))).
Proof.
  apply (unrecognized_method_gets_empty_result (rt := cpython) None
           (request (VInt 9) "ping") (VInt 9)); [reflexivity |].
  intros m [<- | [<- | [<- | [<- | []]]]]; discriminate.
Defined.

Lemma discovery_lists_the_tools_witness :
  exists listing printed,
    handle_request (rt := cpython) (VDict (request (VInt 2) "tools/list")) = ret listing
    /\ listed_names listing = [Some "echo"; Some "add"]
    /\ NoDup (listed_names listing)
    /\ (forall n, In (Some n) (listed_names listing) <-> served (rt := cpython) n)
    /\ printed = [result_response (VInt 2) listing]
    /\ main_loop (rt := cpython) None
         [Decoded (VDict (request (VInt 2) "tools/list"))]
       = (printed, Exhausted)
    /\ main_loop (rt := cpython) None
         [Decoded (VDict (request (VInt 2) "tools/list"));
          Decoded (VDict (request (VInt 2) "tools/list"))]
       = ((printed ++ printed)%list, Exhausted).
Proof.
  apply (discovery_lists_the_tools (rt := cpython) None
           (request (VInt 2) "tools/list")).
  reflexivity.
Defined.

(** The same request with [jsonrpc] "2.0" and without the key. *)
Lemma output_independent_of_jsonrpc_witness :
  fst (main (rt := cpython) [Decoded (VDict (request (VInt 1) "initialize"))])
  = fst (main (rt := cpython)
           [Decoded (VDict [("id", VInt 1); ("method", VStr "initialize")])])
  /\ termination_variant
       (snd (main (rt := cpython) [Decoded (VDict (request (VInt 1) "initialize"))]))
       (snd (main (rt := cpython)
               [Decoded (VDict [("id", VInt 1); ("method", VStr "initialize")])]))
  /\ Forall (fun resp => py_getitem (rt := cpython) resp "jsonrpc" = ret (VStr "2.0"))
       (fst (main (rt := cpython) [Decoded (VDict (request (VInt 1) "initialize"))])).
Proof.
  apply (output_independent_of_jsonrpc (rt := cpython)).
  constructor; [| constructor].
  apply lv_decoded, vv_object. intros k Hk. simpl.
  destruct (String.eqb_spec k "jsonrpc"); [contradiction | reflexivity].
Defined.

(** * Sessions *)

Section Sessions.

Context {rt : PyRuntime}.

Lemma reply_length (d : list (string * value)) : (List.length (reply d) <= 1)%nat.
Proof.
  unfold reply. destruct (dict_lookup "id" d); [| simpl; lia].
  destruct (handle_request (VDict d)) as [e | r]; [simpl; lia |].
  destruct (is_none r); simpl; lia.
Qed.

Lemma except_Exception_length
    (b b' : option value) (e : exn) (printed : list value) :
  except_Exception b e = Next printed b' -> (List.length printed <= 1)%nat.
Proof.
  unfold except_Exception.
  destruct b as [r |]; [| discriminate].
  destruct (py_contains "id" r) as [e' | [|]]; try discriminate.
  - destruct (py_get r "id" VNone); [discriminate |].
    intros H. injection H as <- _. simpl. lia.
  - intros H. injection H as <- _. simpl. lia.
Qed.

Lemma iteration_length
    (st st' : option value) (line : loads_outcome) (printed : list value) :
  iteration st line = Next printed st' -> (List.length printed <= 1)%nat.
Proof.
  destruct line as [r | | e].
  - destruct r as [| b | z | f | s | vs | d];
      try (rewrite iteration_not_object by discriminate;
           apply except_Exception_length).
    rewrite iteration_request. intros H. injection H as <- _.
    apply reply_length.
  - simpl. intros H. injection H as <- _. simpl. lia.
  - apply except_Exception_length.
Qed.

(** One line in gives at most one line out: a session never prints more
    lines than it was given. *)
Theorem at_most_one_line_per_line (stdin : list loads_outcome) :
  (List.length (fst (main stdin)) <= List.length stdin)%nat.
Proof.
  unfold main. generalize (@None value).
  induction stdin as [| line rest IH]; intros st; simpl; [lia |].
  destruct (iteration st line) as [printed st' |] eqn:E; [| simpl; lia].
  specialize (IH st'). destruct (main_loop st' rest) as [out t]. simpl in *.
  rewrite length_app. apply iteration_length in E. lia.
Qed.

(** What [handle_request] returns is [None] or a dict. *)
Lemma handle_request_returns_object (v r : value) :
  handle_request v = ret r -> r = VNone \/ exists items, r = VDict items.
Proof.
  destruct v as [| b | z | f | s | vs | d]; try discriminate.
  unfold handle_request, ret. cbn [py_get bind ret].
  destruct (py_eq_str _ "initialize").
  { intros H. injection H as <-. right. eexists. reflexivity. }
  destruct (py_eq_str _ "notifications/initialized").
  { intros H. injection H as <-. now left. }
  destruct (py_eq_str _ "tools/list").
  { intros H. injection H as <-. right. eexists. reflexivity. }
  destruct (py_eq_str _ "tools/call").
  2:{ intros H. injection H as <-. right. eexists. reflexivity. }
  unfold ret. intros H. repeat bind_inv H.
  repeat match type of H with
         | (if ?c then _ else _) = _ => destruct c
         end;
    repeat bind_inv H; injection H as <-; right; eexists; reflexivity.
Qed.

Lemma reply_well_formed (d : list (string * value)) :
  Forall well_formed_response (reply d).
Proof.
  unfold reply. destruct (dict_lookup "id" d) as [id |]; [| constructor].
  destruct (handle_request (VDict d)) as [e | r] eqn:E.
  - repeat constructor. exists id. right. eauto.
  - destruct (handle_request_returns_object _ _ E) as [-> | [items ->]];
      cbn [is_none]; repeat constructor.
    exists id. left. eauto.
Qed.

Lemma except_Exception_well_formed
    (b b' : option value) (e : exn) (printed : list value) :
  except_Exception b e = Next printed b' -> Forall well_formed_response printed.
Proof.
  unfold except_Exception.
  destruct b as [r |]; [| discriminate].
  destruct (py_contains "id" r) as [e' | [|]]; try discriminate.
  - destruct (py_get r "id" VNone) as [e' | id]; [discriminate |].
    intros H. injection H as <- _. repeat constructor. exists id. right. eauto.
  - intros H. injection H as <- _. constructor.
Qed.

(** Every line a session prints is a Response in full: the three keys
    [jsonrpc], [id] and either [result], holding an object and never
    [null], or [error], holding the code -32603 and a message. *)
Theorem printed_lines_are_well_formed (stdin : list loads_outcome) :
  Forall well_formed_response (fst (main stdin)).
Proof.
  unfold main. generalize (@None value).
  induction stdin as [| line rest IH]; intros st; simpl; [constructor |].
  destruct (iteration st line) as [printed st' |] eqn:E; [| constructor].
  specialize (IH st'). destruct (main_loop st' rest) as [out t]. simpl in *.
  apply Forall_app. split; [| exact IH].
  destruct line as [r | | e].
  - destruct r as [| b | z | f | s | vs | d];
      try (rewrite iteration_not_object in E by discriminate;
           eapply except_Exception_well_formed; exact E).
    rewrite iteration_request in E. injection E as <- _.
    apply reply_well_formed.
  - injection E as <- _. constructor.
  - eapply except_Exception_well_formed; exact E.
Qed.







End Sessions.

(** * Lines that end the session *)

Section Fatal.

Context {rt : PyRuntime}.





(** A decoded array with no element "id", or a decoded string that does
    not contain "id", is skipped: nothing is printed and the loop goes
    on. *)
Theorem harmless_non_object_is_skipped (st : option value) (v : value) :
  (forall d, v <> VDict d) ->
  fatal_value v = false ->
  iteration st (Decoded v) = Next [] (Some v).
Proof.
  intros Hv Hf. rewrite (iteration_not_object st v Hv). unfold except_Exception.
  destruct v as [| b | z | f | s | vs | d]; cbn [fatal_value] in Hf;
    try discriminate; cbn [py_contains ret].
  - now rewrite Hf.
  - now rewrite Hf.
  - now contradiction (Hv d).
Qed.



(** A request can be answered twice.  When the line after a request with
    an [id] makes [json.loads] raise something else than [JSONDecodeError],
    the clause [except Exception] finds the request still bound to [req]
    and prints an error Response with its [id], after the Response the
    request already got. *)
Theorem request_answered_again_on_loads_fault
    (st : option value) (d : list (string * value)) (id : value) (e : exn)
    (rest : list loads_outcome) :
  dict_lookup "id" d = Some id ->
  dict_lookup "method" d <> Some (VStr "notifications/initialized") ->
  exists resp,
    py_getitem resp "id" = ret id
    /\ main_loop st (Decoded (VDict d) :: Raised e :: rest)
       = ((resp :: error_response id (exn_str e)
                :: fst (main_loop (Some (VDict d)) rest))%list,
          snd (main_loop (Some (VDict d)) rest)).
Proof.
  intros Hid Hm.
  destruct (reply_with_id d id Hid Hm) as [resp [Hr Hshape]].
  exists resp. split.
  { destruct Hshape as [[r [_ ->]] | [e' [_ ->]]]; reflexivity. }
  cbn [main_loop]. rewrite iteration_request, Hr.
  cbn [iteration]. rewrite except_Exception_request, Hid.
  now destruct (main_loop (Some (VDict d)) rest).
Qed.

End Fatal.

(** * The branches of the dispatcher *)

Section Branches.

Context {rt : PyRuntime}.


(** [initialize] is answered with the same payload whatever else the
    request holds: protocol version 2024-11-05, the capability [tools]
    and the server name and version. *)
Theorem initialize_is_answered_with_the_server_identity
    (st : option value) (d : list (string * value)) (id : value) :
  dict_lookup "id" d = Some id ->
  dict_lookup "method" d = Some (VStr "initialize") ->
  iteration st (Decoded (VDict d)) =
  Next [VDict
          [("jsonrpc", VStr "2.0");
           ("id", id);
           ("result",
            VDict
              [("protocolVersion", VStr "2024-11-05");
               ("capabilities", VDict [("tools", VDict [])]);
               ("serverInfo",
                VDict [("name", VStr "test-mcp"); ("version", VStr "1.0.0")])])]]
       (Some (VDict d)).
Proof.
  intros Hid Hm. rewrite iteration_request. unfold reply. rewrite Hid.
  rewrite handle_request_method. unfold method_of. rewrite Hm. reflexivity.
Qed.

(** [echo] sends back its [text]: for a string, the Response carries one
    text item, "Echo: " followed by the string, and no [isError].  A
    missing [arguments] or [text] counts as the empty string. *)
Theorem echo_returns_the_text
    (st : option value) (d p args : list (string * value)) (id : value)
    (s : string) :
  dict_lookup "id" d = Some id ->
  dict_lookup "method" d = Some (VStr "tools/call") ->
  dict_lookup "params" d = Some (VDict p) ->
  dict_lookup "name" p = Some (VStr "echo") ->
  get_default p "arguments" (VDict []) = VDict args ->
  get_default args "text" (VStr "") = VStr s ->
  iteration st (Decoded (VDict d)) =
  Next [VDict
          [("jsonrpc", VStr "2.0");
           ("id", id);
           ("result",
            VDict [("content",
                    VList [VDict [("type", VStr "text");
                                  ("text", VStr ("Echo: " ++ s))]])])]]
       (Some (VDict d)).
Proof.
  intros Hid Hm Hp Hn Ha Ht. rewrite iteration_request. unfold reply.
  rewrite Hid. dispatch. rewrite Hm, Hp. lits. rewrite Hn, Ha. lits.
  rewrite Ht. reflexivity.
Qed.

(** [add] of two integers answers with their sum, computed without
    overflow, as long as the interpreter prints the three numbers.  A
    missing operand counts as 0. *)
Theorem add_returns_the_integer_sum
    (st : option value) (d p args : list (string * value)) (id : value)
    (a b : Z) (sa sb ssum : string) :
  dict_lookup "id" d = Some id ->
  dict_lookup "method" d = Some (VStr "tools/call") ->
  dict_lookup "params" d = Some (VDict p) ->
  dict_lookup "name" p = Some (VStr "add") ->
  get_default p "arguments" (VDict []) = VDict args ->
  get_default args "a" (VInt 0) = VInt a ->
  get_default args "b" (VInt 0) = VInt b ->
  int_str a = ret sa ->
  int_str b = ret sb ->
  int_str (a + b) = ret ssum ->
  iteration st (Decoded (VDict d)) =
  Next [VDict
          [("jsonrpc", VStr "2.0");
           ("id", id);
           ("result",
            VDict [("content",
                    VList [VDict [("type", VStr "text");
                                  ("text",
                                   VStr ("Result: " ++ sa ++ " + " ++ sb
                                           ++ " = " ++ ssum))]])])]]
       (Some (VDict d)).
Proof.
  intros Hid Hm Hp Hn Hargs Ha Hb Hsa Hsb Hsum.
  rewrite iteration_request. unfold reply.
  rewrite Hid. dispatch. rewrite Hm, Hp. lits. rewrite Hn, Hargs. lits.
  rewrite Ha, Hb. cbn [py_add as_int bind ret py_str py_repr].
  rewrite Hsa, Hsb, Hsum. reflexivity.
Qed.

(** [add] is Python's [+]: given two strings it answers with their
    concatenation. *)
Theorem add_concatenates_strings
    (st : option value) (d p args : list (string * value)) (id : value)
    (s t : string) :
  dict_lookup "id" d = Some id ->
  dict_lookup "method" d = Some (VStr "tools/call") ->
  dict_lookup "params" d = Some (VDict p) ->
  dict_lookup "name" p = Some (VStr "add") ->
  dict_lookup "arguments" p = Some (VDict args) ->
  dict_lookup "a" args = Some (VStr s) ->
  dict_lookup "b" args = Some (VStr t) ->
  iteration st (Decoded (VDict d)) =
  Next [VDict
          [("jsonrpc", VStr "2.0");
           ("id", id);
           ("result",
            VDict [("content",
                    VList [VDict [("type", VStr "text");
                                  ("text",
                                   VStr ("Result: " ++ s ++ " + " ++ t
                                           ++ " = " ++ (s ++ t)))]])])]]
       (Some (VDict d)).
Proof.
  intros Hid Hm Hp Hn Hargs Ha Hb.
  rewrite iteration_request. unfold reply.
  rewrite Hid. dispatch. rewrite Hm, Hp. lits. rewrite Hn, Hargs. lits.
  rewrite Ha, Hb. reflexivity.
Qed.

(** [add] of a string and anything that is not a string is not a tool
    error but a protocol error: the Response has no [result], and its
    [error] carries code -32603 and the text of the [TypeError]. *)
Theorem add_of_string_and_other_is_a_protocol_error
    (st : option value) (d p args : list (string * value)) (id b : value)
    (s : string) :
  dict_lookup "id" d = Some id ->
  dict_lookup "method" d = Some (VStr "tools/call") ->
  dict_lookup "params" d = Some (VDict p) ->
  dict_lookup "name" p = Some (VStr "add") ->
  dict_lookup "arguments" p = Some (VDict args) ->
  dict_lookup "a" args = Some (VStr s) ->
  get_default args "b" (VInt 0) = b ->
  (forall t, b <> VStr t) ->
  iteration st (Decoded (VDict d)) =
  Next [VDict
          [("jsonrpc", VStr "2.0");
           ("id", id);
           ("error",
            VDict [("code", VInt (-32603));
                   ("message",
                    VStr ("can only concatenate str (not " ++ dq
                            ++ type_name b ++ dq ++ ") to str"))])]]
       (Some (VDict d)).
Proof.
  intros Hid Hm Hp Hn Hargs Ha Hb Hne.
  rewrite iteration_request. unfold reply.
  rewrite Hid. dispatch. rewrite Hm, Hp. lits. rewrite Hn, Hargs. lits.
  rewrite Ha, Hb.
  destruct b as [| x | z | f | t | vs | it]; try reflexivity.
  now contradiction (Hne t).
Qed.

(** A [tools/call] whose [params] is not an object is answered with the
    error Response of the [AttributeError] that [params.get] raises. *)
Theorem params_not_an_object_is_a_protocol_error
    (st : option value) (d : list (string * value)) (id params : value) :
  dict_lookup "id" d = Some id ->
  dict_lookup "method" d = Some (VStr "tools/call") ->
  dict_lookup "params" d = Some params ->
  (forall p, params <> VDict p) ->
  iteration st (Decoded (VDict d)) =
  Next [VDict
          [("jsonrpc", VStr "2.0");
           ("id", id);
           ("error",
            VDict [("code", VInt (-32603));
                   ("message",
                    VStr ("'" ++ type_name params
                            ++ "' object has no attribute 'get'"))])]]
       (Some (VDict d)).
Proof.
  intros Hid Hm Hp Hne.
  rewrite iteration_request. unfold reply.
  rewrite Hid. dispatch. rewrite Hm, Hp. lits.
  destruct params as [| x | z | f | t | vs | p]; try reflexivity.
  now contradiction (Hne p).
Qed.

(** For the tools [echo] and [add], [arguments] that is not an object is
    answered the same way, with the error Response of the
    [AttributeError]. *)
Theorem arguments_not_an_object_is_a_protocol_error
    (st : option value) (d p : list (string * value)) (id args : value)
    (n : string) :
  dict_lookup "id" d = Some id ->
  dict_lookup "method" d = Some (VStr "tools/call") ->
  dict_lookup "params" d = Some (VDict p) ->
  dict_lookup "name" p = Some (VStr n) ->
  n = "echo" \/ n = "add" ->
  dict_lookup "arguments" p = Some args ->
  (forall a, args <> VDict a) ->
  iteration st (Decoded (VDict d)) =
  Next [VDict
          [("jsonrpc", VStr "2.0");
           ("id", id);
           ("error",
            VDict [("code", VInt (-32603));
                   ("message",
                    VStr ("'" ++ type_name args
                            ++ "' object has no attribute 'get'"))])]]
       (Some (VDict d)).
Proof.
  intros Hid Hm Hp Hn Hserved Hargs Hne.
  rewrite iteration_request. unfold reply.
  rewrite Hid. dispatch. rewrite Hm, Hp. lits. rewrite Hn, Hargs.
  destruct Hserved as [-> | ->]; lits;
    (destruct args as [| x | z | f | t | vs | a]; try reflexivity;
     now contradiction (Hne a)).
Qed.

(** A [tools/call] that names no tool, because [params] is missing or has
    no [name], is answered as a call of the unknown tool with the empty
    name. *)
Theorem call_without_a_name_is_an_unknown_tool
    (st : option value) (d p : list (string * value)) (id : value) :
  dict_lookup "id" d = Some id ->
  dict_lookup "method" d = Some (VStr "tools/call") ->
  get_default d "params" (VDict []) = VDict p ->
  dict_lookup "name" p = None ->
  iteration st (Decoded (VDict d)) =
  Next [VDict
          [("jsonrpc", VStr "2.0");
           ("id", id);
           ("result",
            VDict [("content",
                    VList [VDict [("type", VStr "text");
                                  ("text", VStr "Unknown tool: ")]]);
                   ("isError", VBool true)])]]
       (Some (VDict d)).
Proof.
  intros Hid Hm Hp Hn. rewrite iteration_request. unfold reply.
  rewrite Hid. dispatch. rewrite Hm. lits. rewrite Hp. lits. rewrite Hn.
  reflexivity.
Qed.

(** Only the keys [id], [method] and [params] of a request count: two
    requests that agree on these three are answered by the same lines,
    whatever other keys they hold. *)
Theorem only_id_method_params_count
    (st1 st2 : option value) (d1 d2 : list (string * value)) :
  (forall k, In k ["id"; "method"; "params"] ->
             dict_lookup k d1 = dict_lookup k d2) ->
  exists printed,
    iteration st1 (Decoded (VDict d1)) = Next printed (Some (VDict d1))
    /\ iteration st2 (Decoded (VDict d2)) = Next printed (Some (VDict d2)).
Proof.
  intros H. exists (reply d1). rewrite !iteration_request. split; [reflexivity |].
  f_equal. unfold reply, handle_request. cbn [py_get bind ret].
  rewrite <- (H "id"), <- (H "method"), <- (H "params") by (simpl; auto).
  reflexivity.
Qed.

End Branches.

(** ** On concrete sessions, under CPython *)



Lemma harmless_non_object_is_skipped_witness :
  iteration (rt := cpython) None (Decoded (VList [VInt 1; VStr "idx"]))
  = Next [] (Some (VList [VInt 1; VStr "idx"])).
Proof.
  apply (harmless_non_object_is_skipped (rt := cpython) None
           (VList [VInt 1; VStr "idx"])); [discriminate | reflexivity].
Defined.

Lemma request_answered_again_on_loads_fault_witness :
  exists resp,
    py_getitem (rt := cpython) resp "id" = ret (VInt 1)
    /\ main_loop (rt := cpython) None
         [Decoded (VDict (request (VInt 1) "initialize"));
          Raised (Exn ValueError "x")]
       = ((resp :: error_response (VInt 1) (exn_str (Exn ValueError "x"))
                :: fst (main_loop (rt := cpython)
                          (Some (VDict (request (VInt 1) "initialize"))) []))%list,
          snd (main_loop (rt := cpython)
                 (Some (VDict (request (VInt 1) "initialize"))) [])).
Proof.
  apply (request_answered_again_on_loads_fault (rt := cpython) None
           (request (VInt 1) "initialize") (VInt 1) (Exn ValueError "x") []);
    [reflexivity | discriminate].
Defined.


Lemma initialize_is_answered_with_the_server_identity_witness :
  iteration (rt := cpython) None
    (Decoded (VDict (("params", VInt 3) :: request (VNone) "initialize")))
  = Next [result_response VNone initialize_result]
      (Some (VDict (("params", VInt 3) :: request (VNone) "initialize"))).
Proof.
  apply (initialize_is_answered_with_the_server_identity (rt := cpython) None
           (("params", VInt 3) :: request (VNone) "initialize") VNone);
    reflexivity.
Defined.

Lemma echo_returns_the_text_witness :
  iteration (rt := cpython) None
    (Decoded (VDict (tool_call (Some (VInt 4)) "echo" (VDict [("text", VStr "hi")]))))
  = Next [result_response (VInt 4) (VDict [("content", text_content "Echo: hi")])]
      (Some (VDict (tool_call (Some (VInt 4)) "echo" (VDict [("text", VStr "hi")])))).
Proof.
  apply (echo_returns_the_text (rt := cpython) None
           (tool_call (Some (VInt 4)) "echo" (VDict [("text", VStr "hi")]))
           [("name", VStr "echo"); ("arguments", VDict [("text", VStr "hi")])]
           [("text", VStr "hi")] (VInt 4) "hi");
    reflexivity.
Defined.

(** [add] with [b] missing: 41 + 0. *)
Lemma add_returns_the_integer_sum_witness :
  iteration (rt := cpython) None
    (Decoded (VDict (tool_call (Some (VInt 5)) "add" (VDict [("a", VInt 41)]))))
  = Next [result_response (VInt 5)
            (VDict [("content", text_content "Result: 41 + 0 = 41")])]
      (Some (VDict (tool_call (Some (VInt 5)) "add" (VDict [("a", VInt 41)])))).
Proof.
  apply (add_returns_the_integer_sum (rt := cpython) None
           (tool_call (Some (VInt 5)) "add" (VDict [("a", VInt 41)]))
           [("name", VStr "add"); ("arguments", VDict [("a", VInt 41)])]
           [("a", VInt 41)] (VInt 5) 41 0 "41" "0" "41");
    reflexivity.
Defined.

Lemma add_concatenates_strings_witness :
  iteration (rt := cpython) None
    (Decoded (VDict (tool_call (Some (VInt 6)) "add"
                       (VDict [("a", VStr "ab"); ("b", VStr "cd")]))))
  = Next [result_response (VInt 6)
            (VDict [("content", text_content "Result: ab + cd = abcd")])]
      (Some (VDict (tool_call (Some (VInt 6)) "add"
                      (VDict [("a", VStr "ab"); ("b", VStr "cd")])))).
Proof.
  apply (add_concatenates_strings (rt := cpython) None
           (tool_call (Some (VInt 6)) "add"
              (VDict [("a", VStr "ab"); ("b", VStr "cd")]))
           [("name", VStr "add");
            ("arguments", VDict [("a", VStr "ab"); ("b", VStr "cd")])]
           [("a", VStr "ab"); ("b", VStr "cd")] (VInt 6) "ab" "cd");
    reflexivity.
Defined.

(** [add] of "ab" with [b] missing: "ab" + 0. *)
Lemma add_of_string_and_other_is_a_protocol_error_witness :
  iteration (rt := cpython) None
    (Decoded (VDict (tool_call (Some (VInt 7)) "add" (VDict [("a", VStr "ab")]))))
  = Next [error_response (VInt 7)
            ("can only concatenate str (not " ++ dq ++ "int" ++ dq ++ ") to str")]
      (Some (VDict (tool_call (Some (VInt 7)) "add" (VDict [("a", VStr "ab")])))).
Proof.
  apply (add_of_string_and_other_is_a_protocol_error (rt := cpython) None
           (tool_call (Some (VInt 7)) "add" (VDict [("a", VStr "ab")]))
           [("name", VStr "add"); ("arguments", VDict [("a", VStr "ab")])]
           [("a", VStr "ab")] (VInt 7) (VInt 0) "ab");
    try reflexivity; discriminate.
Defined.

Lemma params_not_an_object_is_a_protocol_error_witness :
  iteration (rt := cpython) None
    (Decoded (VDict (request (VInt 8) "tools/call" ++ [("params", VList [])])))
  = Next [error_response (VInt 8) "'list' object has no attribute 'get'"]
      (Some (VDict (request (VInt 8) "tools/call" ++ [("params", VList [])]))).
Proof.
  apply (params_not_an_object_is_a_protocol_error (rt := cpython) None
           (request (VInt 8) "tools/call" ++ [("params", VList [])])
           (VInt 8) (VList []));
    try reflexivity; discriminate.
Defined.

Lemma arguments_not_an_object_is_a_protocol_error_witness :
  iteration (rt := cpython) None
    (Decoded (VDict (tool_call (Some (VInt 9)) "echo" (VStr "hi"))))
  = Next [error_response (VInt 9) "'str' object has no attribute 'get'"]
      (Some (VDict (tool_call (Some (VInt 9)) "echo" (VStr "hi")))).
Proof.
  apply (arguments_not_an_object_is_a_protocol_error (rt := cpython) None
           (tool_call (Some (VInt 9)) "echo" (VStr "hi"))
           [("name", VStr "echo"); ("arguments", VStr "hi")]
           (VInt 9) (VStr "hi") "echo");
    try reflexivity; [now left | discriminate].
Defined.

Lemma call_without_a_name_is_an_unknown_tool_witness :
  iteration (rt := cpython) None (Decoded (VDict (request (VInt 10) "tools/call")))
  = Next [result_response (VInt 10) (unknown_tool_result "")]
      (Some (VDict (request (VInt 10) "tools/call"))).
Proof.
  apply (call_without_a_name_is_an_unknown_tool (rt := cpython) None
           (request (VInt 10) "tools/call") [] (VInt 10));
    reflexivity.
Defined.

(** The same request, once with the extra keys [jsonrpc] and [meta]. *)
Lemma only_id_method_params_count_witness :
  exists printed,
    iteration (rt := cpython) None
      (Decoded (VDict (("meta", VInt 1) :: request (VInt 3) "tools/list")))
    = Next printed (Some (VDict (("meta", VInt 1) :: request (VInt 3) "tools/list")))
    /\ iteration (rt := cpython) None
         (Decoded (VDict [("method", VStr "tools/list"); ("id", VInt 3)]))
       = Next printed (Some (VDict [("method", VStr "tools/list"); ("id", VInt 3)])).
Proof.
  apply (only_id_method_params_count (rt := cpython) None None
           (("meta", VInt 1) :: request (VInt 3) "tools/list")
           [("method", VStr "tools/list"); ("id", VInt 3)]).
  intros k [<- | [<- | [<- | []]]]; reflexivity.
Defined.

(** * Where a session stops *)

Section Stop.

Context {rt : PyRuntime}.



End Stop.

